(** * Employee directory service (src/main.py): a shallow embedding

    The FastAPI service exposes employee documents held in a MongoDB
    collection.  This file embeds the query translation, the record
    normalisation, the seed operation and the diagnostic endpoint of
    [src/main.py], and proves the properties its specification states.

    Representation choices:
    - A Python [str] is its sequence of Unicode code points, a [list Z]
      ([pystr]); a string literal of the source is written [u "..."], the
      code points its UTF-8 text decodes to.
    - Dictionary keys and collection names, ASCII literals in the code, are
      Rocq [string]s.
    - A document (Python dict / BSON document) is a [gmap string Value];
      like Python dict equality, [gmap] equality ignores key order.
    - A filter (the Python dict [filter_query]) is a [gmap string FV]. *)

From Stdlib Require Import ZArith String Ascii Bool Lia.
From stdpp Require Import base gmap strings list.

Open Scope Z_scope.
Set Warnings "-register-all".

(** ** Python strings *)

Abbreviation pystr := (list Z).

(** UTF-8 decoding (of well-formed input): the code points a byte
    sequence encodes. *)
Fixpoint utf8_decode (bs : list Z) : pystr :=
  match bs with
  | [] => []
  | b0 :: r0 =>
      if b0 <? 128 then b0 :: utf8_decode r0
      else if b0 <? 224 then
        match r0 with
        | b1 :: r1 => ((b0 - 192) * 64 + (b1 - 128)) :: utf8_decode r1
        | [] => []
        end
      else if b0 <? 240 then
        match r0 with
        | b1 :: b2 :: r2 =>
            ((b0 - 224) * 4096 + (b1 - 128) * 64 + (b2 - 128)) :: utf8_decode r2
        | _ => []
        end
      else
        match r0 with
        | b1 :: b2 :: b3 :: r3 =>
            ((b0 - 240) * 262144 + (b1 - 128) * 4096 + (b2 - 128) * 64 + (b3 - 128))
              :: utf8_decode r3
        | _ => []
        end
  end.

(** The [str] a literal of the source denotes, from its UTF-8 text. *)
Definition u (s : string) : pystr :=
  utf8_decode (map (fun c => Z.of_nat (nat_of_ascii c)) (list_ascii_of_string s)).

(** ** Values and documents *)

(** The BSON values the data model uses: null, booleans, strings,
    ObjectIds (12 bytes, held as a 96-bit number) and arrays. *)
Inductive Value :=
| VNull
| VBool (b : bool)
| VStr (s : pystr)
| VOid (n : Z)
| VList (xs : list Value).

Abbreviation Doc := (gmap string Value).

(** One lowercase hexadecimal digit. *)
Definition hex_char (n : Z) : Z := if n <? 10 then 48 + n else 87 + n.

(** The [k] low hexadecimal digits of [n], most significant first. *)
Fixpoint hex_digits (k : nat) (n : Z) : pystr :=
  match k with
  | O => []
  | S k' => hex_digits k' (n / 16) ++ [hex_char (n mod 16)]
  end.

(** [str(ObjectId(...))]: 24 hexadecimal digits. *)
Definition oid_str (n : Z) : pystr := hex_digits 24 n.

Fixpoint join_with (sep : pystr) (xs : list pystr) : pystr :=
  match xs with
  | [] => []
  | [x] => x
  | x :: xs' => x ++ sep ++ join_with sep xs'
  end.

(** Python's [repr] on the values above (a string is shown between single
    quotes). *)
Fixpoint py_repr (v : Value) : pystr :=
  match v with
  | VNull => u "None"
  | VBool true => u "True"
  | VBool false => u "False"
  | VStr s => u "'" ++ s ++ u "'"
  | VOid n => u "ObjectId('" ++ oid_str n ++ u "')"
  | VList xs => u "[" ++ join_with (u ", ") (map py_repr xs) ++ u "]"
  end.

(** Python's [str] on the values above. *)
Definition py_str (v : Value) : pystr :=
  match v with
  | VStr s => s
  | VOid n => oid_str n
  | _ => py_repr v
  end.

(** [d.get(k)]: the value, or [None] when the key is missing. *)
Definition py_get (d : Doc) (k : string) : Value :=
  match d !! k with Some v => v | None => VNull end.

(** The normalisation loop body of [list_employees] (lines 126-128):
    [d["id"] = str(d.get("_id")); d.pop("_id", None)]. *)
Definition normalize (d : Doc) : Doc :=
  delete "_id" (<["id" := VStr (py_str (py_get d "_id"))]> d).

(** ** String helpers used by the query translator *)

(** Python truthiness of a [str]: non-empty. *)
Definition py_truthy (s : pystr) : bool :=
  match s with [] => false | _ => true end.

(** The characters [str.strip()] removes, Python's whitespace
    ([Py_UNICODE_ISSPACE]): U+0009-U+000D, U+001C-U+0020, U+0085, U+00A0,
    U+1680, U+2000-U+200A, U+2028, U+2029, U+202F, U+205F and U+3000. *)
Definition is_space (c : Z) : bool :=
  (9 <=? c) && (c <=? 13) || (28 <=? c) && (c <=? 32) ||
  (c =? 133) || (c =? 160) || (c =? 5760) ||
  (8192 <=? c) && (c <=? 8202) ||
  (c =? 8232) || (c =? 8233) || (c =? 8239) || (c =? 8287) || (c =? 12288).

Fixpoint lstrip (s : pystr) : pystr :=
  match s with
  | [] => []
  | c :: s' => if is_space c then lstrip s' else s
  end.

Definition rstrip (s : pystr) : pystr := reverse (lstrip (reverse s)).

(** [str.strip()]. *)
Definition py_strip (s : pystr) : pystr := rstrip (lstrip s).

(** [s.split(sep)] with a one-character separator: empty pieces are kept,
    and there is always one more piece than separators. *)
Fixpoint py_split_go (sep : Z) (s cur : pystr) : list pystr :=
  match s with
  | [] => [cur]
  | c :: s' =>
      if c =? sep then cur :: py_split_go sep s' []
      else py_split_go sep s' (cur ++ [c])
  end.

Definition py_split (sep : Z) (s : pystr) : list pystr := py_split_go sep s [].

(** [[t.strip() for t in tags.split(",") if t.strip()]] (line 119); 44 is
    the comma. *)
Definition tag_list (tags : pystr) : list pystr :=
  map py_strip (List.filter (fun t => py_truthy (py_strip t)) (py_split 44 tags)).

(** ** Filters *)

(** The values [filter_query] holds: a plain string or boolean for an
    equality match, [{"$regex": pat, "$options": opts}],
    [{"$all": [...]}], and the list of one-key dicts under ["$or"]. *)
Inductive FV :=
| FVStr (s : pystr)
| FVBool (b : bool)
| FVRegex (pat opts : pystr)
| FVAll (xs : list pystr)
| FVOr (alts : list (string * FV)).

Abbreviation Filter := (gmap string FV).

(** The query parameters of [list_employees], after FastAPI parsing. *)
Record Request := mkRequest {
  q : option pystr;
  department : option pystr;
  location : option pystr;
  isActive : option bool;
  tags : option pystr;
  limit : option Z
}.

(** The fields the free-text search covers (lines 99-106). *)
Definition search_fields : list string :=
  ["firstName"; "lastName"; "full_name"; "title"; "department"; "email";
   "phone"; "location"].

Definition or_clause (s : pystr) : FV :=
  FVOr (map (fun k => (k, FVRegex s (u "i"))) search_fields).

(** Lines 94-121 of [list_employees]. *)
Definition build_filter (r : Request) : Filter :=
  let f0 : Filter := ∅ in
  let f1 :=
    match r.(q) with
    | Some s => if py_truthy s then <["$or" := or_clause s]> f0 else f0
    | None => f0
    end in
  let f2 :=
    match r.(department) with
    | Some s => if py_truthy s then <["department" := FVStr s]> f1 else f1
    | None => f1
    end in
  let f3 :=
    match r.(location) with
    | Some s => if py_truthy s then <["location" := FVStr s]> f2 else f2
    | None => f2
    end in
  let f4 :=
    match r.(isActive) with
    | Some b => <["isActive" := FVBool b]> f3
    | None => f3
    end in
  match r.(tags) with
  | Some t =>
      if py_truthy t then
        match tag_list t with
        | [] => f4
        | tl => <["tags" := FVAll tl]> f4
        end
      else f4
  | None => f4
  end.

Example u_ex : u "أمين" = [1571; 1605; 1610; 1606].
Proof. reflexivity. Qed.

Example tag_list_ex : tag_list (u " Linux ,, DevOps,  ") = [u "Linux"; u "DevOps"].
Proof. reflexivity. Qed.

(** U+00A0 and U+3000 are whitespace for [strip] as well. *)
Example tag_list_nbsp_ex : tag_list ([160] ++ u "Linux," ++ [12288]) = [u "Linux"].
Proof. reflexivity. Qed.

Example oid_str_ex : oid_str 255 = u "0000000000000000000000ff".
Proof. reflexivity. Qed.

Example normalize_ex :
  normalize {[ "_id" := VOid 1 ]} !! "id" = Some (VStr (u "000000000000000000000001")).
Proof. vm_compute. reflexivity. Qed.

(** ** Query semantics of the document store

    The store (MongoDB) is an external collaborator; these definitions
    model how it evaluates the operators [filter_query] uses, so that the
    filters built above can be read as predicates on documents.  The
    result is [option bool]: [None] marks an evaluation this model does not
    cover (a regular expression outside the fragment below). *)

(** The fragment of PCRE modelled, on code points (MongoDB runs PCRE in
    UTF-8 mode): literal characters and [.], which matches any character
    but a newline. *)
Inductive Tok := TLit (c : Z) | TAny.

(** The metacharacters of PCRE outside a character class, [.] included. *)
Definition is_meta (c : Z) : bool := existsb (Z.eqb c) (u "\^$.[|()?*+{").

(** A character taken literally: no metacharacter, and not NUL, which
    MongoDB refuses in a pattern. *)
Definition lit_char (c : Z) : bool := negb (is_meta c) && negb (c =? 0).

Fixpoint parse_pattern (p : pystr) : option (list Tok) :=
  match p with
  | [] => Some []
  | c :: p' =>
      if c =? 46 then ts ← parse_pattern p'; Some (TAny :: ts)
      else if lit_char c then ts ← parse_pattern p'; Some (TLit c :: ts)
      else None
  end.

(** Kleene conjunction and disjunction on [option bool]. *)
Definition kand (a b : option bool) : option bool :=
  match a, b with
  | Some false, _ | _, Some false => Some false
  | Some true, Some true => Some true
  | _, _ => None
  end.

Definition kor (a b : option bool) : option bool :=
  match a, b with
  | Some true, _ | _, Some true => Some true
  | Some false, Some false => Some false
  | _, _ => None
  end.

Definition is_vstr (s : pystr) (v : Value) : bool :=
  match v with VStr s' => bool_decide (s = s') | _ => false end.

Definition is_vbool (b : bool) (v : Value) : bool :=
  match v with VBool b' => Bool.eqb b b' | _ => false end.

(** The strings a field holds: an array's string elements, or a scalar
    string taken as a one-element array. *)
Definition field_strings (v : option Value) : list pystr :=
  match v with
  | Some (VList ys) => omap (fun y => match y with VStr s => Some s | _ => None end) ys
  | Some (VStr s) => [s]
  | _ => []
  end.

Section StoreSemantics.

(** PCRE's caseless comparison of a pattern character with a subject
    character (option ["i"]; in UTF-8 mode it follows Unicode case
    folding, a table not reproduced here). *)
Variable caseless : Z -> Z -> bool.

Definition tok_ok (ci : bool) (t : Tok) (c : Z) : bool :=
  match t with
  | TAny => negb (c =? 10)
  | TLit l => if ci then caseless l c else l =? c
  end.

(** The pattern matches at the start of [s]. *)
Fixpoint match_here (ci : bool) (ts : list Tok) (s : pystr) : bool :=
  match ts, s with
  | [], _ => true
  | t :: ts', c :: s' => tok_ok ci t c && match_here ci ts' s'
  | _ :: _, [] => false
  end.

(** Unanchored search: the pattern matches at some position of [s]. *)
Fixpoint search (ci : bool) (ts : list Tok) (s : pystr) : bool :=
  match_here ci ts s ||
  match s with
  | [] => false
  | _ :: s' => search ci ts s'
  end.

Definition regex_search (pat opts s : pystr) : option bool :=
  ts ← parse_pattern pat;
  Some (search (existsb (Z.eqb 105) opts) ts s).

(** One field condition against the field's value (absent: [None]).
    Equality and [$regex] also match an array holding a matching
    element; [$all] needs every listed string among the field's strings,
    and [$all] with an empty list matches nothing. *)
Definition cond_match (v : option Value) (c : FV) : option bool :=
  match c with
  | FVStr s =>
      Some (match v with
            | Some (VList ys) => existsb (is_vstr s) ys
            | Some x => is_vstr s x
            | None => false
            end)
  | FVBool b =>
      Some (match v with
            | Some (VList ys) => existsb (is_vbool b) ys
            | Some x => is_vbool b x
            | None => false
            end)
  | FVRegex pat opts =>
      match v with
      | Some (VStr s) => regex_search pat opts s
      | Some (VList ys) =>
          foldr kor (Some false)
            (map (fun y => match y with
                           | VStr s => regex_search pat opts s
                           | _ => Some false
                           end) ys)
      | _ => Some false
      end
  | FVAll xs =>
      Some (negb (bool_decide (xs = [])) &&
            forallb (fun x => bool_decide (x ∈ field_strings v)) xs)
  | FVOr _ => None
  end.

(** One top-level entry of a filter: ["$or"] takes the disjunction of its
    one-key alternatives; any other key is a condition on that field. *)
Definition clause_match (d : Doc) (k : string) (c : FV) : option bool :=
  match c with
  | FVOr alts =>
      if String.eqb k "$or" then
        foldr kor (Some false) (map (fun '(k', c') => cond_match (d !! k') c') alts)
      else None
  | _ => cond_match (d !! k) c
  end.

(** A filter selects a document when all its entries do. *)
Definition doc_matches (f : Filter) (d : Doc) : option bool :=
  foldr kand (Some true) (map (fun '(k, c) => clause_match d k c) (map_to_list f)).

End StoreSemantics.

(** ** The endpoints *)

(** FastAPI's [jsonable_encoder], applied to what a handler returns:
    every value above is encodable but an ObjectId, for which it raises. *)
Fixpoint json_ok (v : Value) : bool :=
  match v with
  | VOid _ => false
  | VList xs => forallb json_ok xs
  | _ => true
  end.

Definition doc_json_ok (d : Doc) : bool :=
  forallb (fun kv => json_ok kv.2) (map_to_list d).

Inductive Response (A : Type) :=
| Ok (a : A)
| HTTPError (status : Z) (detail : string).
Arguments Ok {A} a.
Arguments HTTPError {A} status detail.

(** The body of a successful [list_employees]. *)
Record ListResult := mkListResult { items : list Doc; count : nat }.

(** Store interactions, in the order they happen. *)
Inductive Event :=
| EvFind (coll : string) (f : Filter) (lim : Z)
| EvInsert (coll : string) (d : Doc) (ok : bool).

(** The body of [/test]. *)
Record TestResult := mkTestResult {
  backend : pystr;
  database : pystr;
  database_url : pystr;
  database_name : pystr;
  connection_status : pystr;
  collections : list pystr
}.

Section Service.

(** The store handle and the helpers of the [database] module:
    [get_documents] and [create_document] either raise ([inl] with the
    error text) or return; [create_document] may change the store. *)
Variable Store : Type.
Variable get_documents : Store -> string -> Filter -> Z -> pystr + list Doc.
Variable create_document : Store -> string -> Doc -> Store * (pystr + pystr).
Variable db_name : Store -> option pystr.
Variable list_collection_names : Store -> pystr + list pystr.

(** [GET /api/employees]: FastAPI first checks [limit <= 500]
    ([Query(default=200, le=500)]) and answers 422 otherwise; then the
    handler (lines 91-130) runs.  [db] is the module-level handle,
    [None] when the database is not configured.  The returned dict then
    goes through [jsonable_encoder]; when it raises (an ObjectId left in a
    document), Starlette answers 500 Internal Server Error. *)
Definition list_employees (db : option Store) (r : Request)
  : Response ListResult * list Event :=
  let lim := default 200 r.(limit) in
  if 500 <? lim then (HTTPError 422 "Input should be less than or equal to 500", [])
  else
    match db with
    | None => (HTTPError 500 "Database not configured", [])
    | Some s =>
        let filter_query := build_filter r in
        let ev := [EvFind "employee" filter_query lim] in
        match get_documents s "employee" filter_query lim with
        | inl _ => (HTTPError 500 "Internal Server Error", ev)
        | inr docs =>
            if forallb doc_json_ok (map normalize docs)
            then (Ok {| items := map normalize docs; count := length docs |}, ev)
            else (HTTPError 500 "Internal Server Error", ev)
        end
    end.

(** The fixed sample set of [seed_employees] (lines 137-183). *)
Definition sample : list Doc :=
  [ list_to_map
      [("firstName", VStr (u "أمين")); ("lastName", VStr (u "بن صالح"));
       ("full_name", VStr (u "أمين بن صالح")); ("title", VStr (u "مهندس نظم"));
       ("department", VStr (u "IT")); ("email", VStr (u "amine.bensaleh@example.com"));
       ("phone", VStr (u "+213560000001")); ("office", VStr (u "D3-201"));
       ("location", VStr (u "Bab Ezzouar"));
       ("photoUrl", VStr (u "https://i.pravatar.cc/150?img=1"));
       ("bio", VStr (u "خبير في البنية التحتية والشبكات."));
       ("tags", VList [VStr (u "Linux"); VStr (u "Networking"); VStr (u "DevOps")]);
       ("isActive", VBool true)];
    list_to_map
      [("firstName", VStr (u "ليلى")); ("lastName", VStr (u "قاسم"));
       ("full_name", VStr (u "ليلى قاسم")); ("title", VStr (u "موارد بشرية"));
       ("department", VStr (u "HR")); ("email", VStr (u "leila.kacem@example.com"));
       ("phone", VStr (u "+213560000002")); ("office", VStr (u "D3-105"));
       ("location", VStr (u "Bab Ezzouar"));
       ("photoUrl", VStr (u "https://i.pravatar.cc/150?img=5"));
       ("bio", VStr (u "تطوير المواهب وثقافة المؤسسة."));
       ("tags", VList [VStr (u "Recruitment"); VStr (u "Culture")]);
       ("isActive", VBool true)];
    list_to_map
      [("firstName", VStr (u "مروان")); ("lastName", VStr (u "شرقي"));
       ("full_name", VStr (u "مروان شرقي")); ("title", VStr (u "محاسب"));
       ("department", VStr (u "Finance")); ("email", VStr (u "marouane.cherki@example.com"));
       ("phone", VStr (u "+213560000003")); ("office", VStr (u "D3-009"));
       ("location", VStr (u "Bab Ezzouar"));
       ("photoUrl", VStr (u "https://i.pravatar.cc/150?img=8"));
       ("bio", VStr (u "إدارة الميزانيات والتقارير."));
       ("tags", VList [VStr (u "Accounting"); VStr (u "Excel")]);
       ("isActive", VBool true)] ].

(** Lines 185-191: [for s in sample: try: create_document("employee", s);
    inserted += 1 except Exception: pass], with the store threaded
    through and every attempt logged with its outcome. *)
Fixpoint seed_loop (st : Store) (docs : list Doc) (inserted : nat)
  : Store * nat * list Event :=
  match docs with
  | [] => (st, inserted, [])
  | s :: rest =>
      let '(st1, res) := create_document st "employee" s in
      let ok := match res with inl _ => false | inr _ => true end in
      let '(st2, n, evs) := seed_loop st1 rest (if ok then S inserted else inserted) in
      (st2, n, EvInsert "employee" s ok :: evs)
  end.

(** [POST /api/employees/seed] (lines 132-193). *)
Definition seed_employees (db : option Store) : Response nat * list Event :=
  match db with
  | None => (HTTPError 500 "Database not configured", [])
  | Some st =>
      let '(_, inserted, evs) := seed_loop st sample 0 in
      (Ok inserted, evs)
  end.

(** [str(e)[:50]]: the first 50 characters. *)
Definition trunc50 (e : pystr) : pystr := take 50 e.

(** [GET /test] (lines 27-69).  [env_url] and [env_name] are the values
    of [os.getenv("DATABASE_URL")] and [os.getenv("DATABASE_NAME")]; the
    [import] of the already loaded [database] module succeeds. *)
Definition test_database (db : option Store) (env_url env_name : option pystr)
  : Response TestResult :=
  let r0 := {| backend := u "✅ Running"; database := u "❌ Not Available";
               database_url := u "None"; database_name := u "None";
               connection_status := u "Not Connected"; collections := [] |} in
  let r1 :=
    match db with
    | Some st =>
        let name := match db_name st with Some n => n | None => u "✅ Connected" end in
        match list_collection_names st with
        | inr cols =>
            {| backend := r0.(backend); database := u "✅ Connected & Working";
               database_url := u "✅ Configured"; database_name := name;
               connection_status := u "Connected"; collections := take 10 cols |}
        | inl e =>
            {| backend := r0.(backend);
               database := u "⚠️  Connected but Error: " ++ trunc50 e;
               database_url := u "✅ Configured"; database_name := name;
               connection_status := u "Connected"; collections := [] |}
        end
    | None =>
        {| backend := r0.(backend); database := u "⚠️  Available but not initialized";
           database_url := r0.(database_url); database_name := r0.(database_name);
           connection_status := r0.(connection_status); collections := [] |}
    end in
  let set_env (o : option pystr) :=
    match o with Some v => if py_truthy v then u "✅ Set" else u "❌ Not Set"
               | None => u "❌ Not Set" end in
  Ok {| backend := r1.(backend); database := r1.(database);
        database_url := set_env env_url; database_name := set_env env_name;
        connection_status := r1.(connection_status); collections := r1.(collections) |}.

End Service.

Arguments list_employees {Store} get_documents db r.
Arguments seed_employees {Store} create_document db.
Arguments seed_loop {Store} create_document st docs inserted.
Arguments test_database {Store} db_name list_collection_names db env_url env_name.

(** ** A concrete store, to run the endpoints on *)

Definition demo_doc : Doc :=
  {[ "_id" := VOid 7; "department" := VStr (u "HR"); "tags" := VList [VStr (u "Culture")] ]}.

(** A store with one document whose find honours the cap. *)
Definition demo_find (_ : unit) (_ : string) (_ : Filter) (lim : Z) : pystr + list Doc :=
  inr (take (Z.to_nat lim) [demo_doc]).

(** A store counting insertions, whose second insertion raises. *)
Definition demo_insert (n : nat) (_ : string) (_ : Doc) : nat * (pystr + pystr) :=
  (S n, if Nat.eqb n 1 then inl (u "E11000 duplicate key error") else inr (u "ok")).

Definition demo_request : Request := mkRequest None None None None None None.

(** Case folding of the Basic Latin and Latin-1 letters, a part of
    Unicode's; with it the store can be run on concrete patterns. *)
Definition fold_latin1 (c : Z) : Z :=
  if (65 <=? c) && (c <=? 90) then c + 32
  else if (192 <=? c) && (c <=? 222) && negb (c =? 215) then c + 32
  else c.

Definition caseless_latin1 (l c : Z) : bool := fold_latin1 l =? fold_latin1 c.

(** ** Reading aids for the statements *)

(** [q] occurs in [s] as a substring, characters compared by [caseless]. *)
Definition contains_ci (caseless : Z -> Z -> bool) (q s : pystr) : Prop :=
  exists a m b, s = a ++ m ++ b /\ Forall2 (fun x y => caseless x y = true) q m.

(** [q] has no regular-expression metacharacter (nor NUL). *)
Definition no_meta (q : pystr) : bool := forallb lit_char q.

Definition ev_doc (e : Event) : option Doc :=
  match e with EvInsert _ d _ => Some d | EvFind _ _ _ => None end.

Definition ev_ok (e : Event) : bool :=
  match e with EvInsert _ _ ok => ok | EvFind _ _ _ => false end.

(** A store that appends every inserted document and never fails. *)
Definition append_insert (st : list Doc) (_ : string) (d : Doc) : list Doc * (pystr + pystr) :=
  (st ++ [d], inr (u "ok")).


(** ** Lemmas *)

Lemma kand_true (a b : option bool) :
  kand a b = Some true <-> a = Some true /\ b = Some true.
Proof. destruct a as [[]|], b as [[]|]; simpl; intuition congruence. Qed.

Lemma kand_false_l (b : option bool) : kand (Some false) b = Some false.
Proof. destruct b as [[]|]; reflexivity. Qed.

Lemma kand_false_r (a : option bool) : kand a (Some false) = Some false.
Proof. destruct a as [[]|]; reflexivity. Qed.

Lemma foldr_kand_false (g : string * FV -> option bool) (l : list (string * FV)) x :
  x ∈ l -> g x = Some false -> foldr kand (Some true) (map g l) = Some false.
Proof.
  induction l as [|y l IH]; simpl; intros Hx Hg.
  - by apply elem_of_nil in Hx.
  - apply elem_of_cons in Hx as [->|Hx].
    + rewrite Hg. apply kand_false_l.
    + rewrite IH by done. apply kand_false_r.
Qed.

Lemma doc_matches_clause_false cl (f : Filter) (d : Doc) k c :
  f !! k = Some c -> clause_match cl d k c = Some false -> doc_matches cl f d = Some false.
Proof.
  unfold doc_matches. intros Hk Hc.
  apply (foldr_kand_false (fun '(k, c) => clause_match cl d k c) _ (k, c)); [|done].
  by apply elem_of_map_to_list.
Qed.

Lemma foldr_kor_some {A} (g : A -> bool) (l : list A) :
  foldr kor (Some false) (map (fun x => Some (g x)) l) = Some (existsb g l).
Proof.
  induction l as [|y l IH]; simpl; [done|]. rewrite IH.
  destruct (g y), (existsb g l); reflexivity.
Qed.

Lemma parse_pattern_lits (p : pystr) :
  no_meta p = true -> parse_pattern p = Some (map TLit p).
Proof.
  induction p as [|c p IH]; [done|].
  intros H. unfold no_meta in H. simpl in H. apply andb_true_iff in H as [Hc Hp].
  simpl. destruct (c =? 46) eqn:E.
  - apply Z.eqb_eq in E. subst c. discriminate.
  - rewrite Hc. by rewrite IH.
Qed.

Lemma match_here_lits cl (p s : pystr) :
  match_here cl true (map TLit p) s = true <->
  exists m b, s = m ++ b /\ Forall2 (fun x y => cl x y = true) p m.
Proof.
  revert s. induction p as [|c p IH]; intros s; simpl.
  - split; [intros _; exists [], s; split; [done|constructor]|done].
  - destruct s as [|c' s'].
    + split; [discriminate|]. intros (m & b & Hs & Hl).
      inversion Hl; subst. discriminate.
    + rewrite andb_true_iff, IH. split.
      * intros [Hc (m & b & -> & Hl)]. exists (c' :: m), b. split; [done|]. by constructor.
      * intros (m & b & Hs & Hl). inversion Hl as [|x y l l' Hxy Hll']; subst.
        simpl in Hs. injection Hs as -> ->. split; [done|]. by exists l', b.
Qed.

Lemma search_iff cl (ci : bool) (ts : list Tok) (s : pystr) :
  search cl ci ts s = true <->
  exists a b, s = a ++ b /\ match_here cl ci ts b = true.
Proof.
  induction s as [|c s IH]; simpl; rewrite orb_true_iff.
  - split.
    + intros [H|H]; [by exists [], []|discriminate].
    + intros (a & b & Hs & H). symmetry in Hs.
      apply app_eq_nil in Hs as [-> ->]. by left.
  - rewrite IH. split.
    + intros [H|(a & b & -> & H)].
      * by exists [], (c :: s).
      * by exists (c :: a), b.
    + intros (a & b & Hs & H). destruct a as [|c' a]; simpl in Hs.
      * subst b. by left.
      * injection Hs as -> ->. right. by exists a, b.
Qed.

Lemma contains_ci_search cl (p s : pystr) :
  contains_ci cl p s <-> search cl true (map TLit p) s = true.
Proof.
  unfold contains_ci. rewrite search_iff. split.
  - intros (a & m & b & -> & Hl). exists a, (m ++ b).
    split; [done|]. apply match_here_lits. by exists m, b.
  - intros (a & r & -> & H). apply match_here_lits in H as (m & b & -> & Hl).
    by exists a, m, b.
Qed.

Lemma length_hex_digits (k : nat) (n : Z) : length (hex_digits k n) = k.
Proof.
  revert n. induction k as [|k IH]; intros n; simpl; [done|].
  rewrite length_app, IH. simpl. lia.
Qed.

Lemma py_str_nonempty (v : Value) : v <> VStr [] -> py_str v <> [].
Proof.
  intros Hv H. destruct v as [|[]|s|n|xs]; simpl in H.
  1-3, 6: by vm_compute in H.
  - by subst.
  - apply (f_equal length) in H. unfold oid_str in H.
    rewrite length_hex_digits in H. discriminate.
Qed.

Lemma normalize_lookup_id (d : Doc) :
  normalize d !! "id" = Some (VStr (py_str (py_get d "_id"))).
Proof. unfold normalize. rewrite lookup_delete_ne by done. apply lookup_insert_eq. Qed.

Lemma normalize_lookup_oid (d : Doc) : normalize d !! "_id" = None.
Proof. unfold normalize. apply lookup_delete_eq. Qed.

Lemma normalize_lookup_ne (d : Doc) (k : string) :
  k <> "id" -> k <> "_id" -> normalize d !! k = d !! k.
Proof.
  intros Hid Hoid. unfold normalize.
  rewrite lookup_delete_ne by congruence. by rewrite lookup_insert_ne by congruence.
Qed.

Lemma py_truthy_false (s : pystr) : py_truthy s = false -> s = [].
Proof. by destruct s. Qed.

Lemma py_truthy_true (s : pystr) : s <> [] -> py_truthy s = true.
Proof. by destruct s. Qed.

Lemma build_filter_or (r : Request) (s : pystr) :
  r.(q) = Some s -> s <> [] -> build_filter r !! "$or" = Some (or_clause s).
Proof.
  intros Hq Hs. unfold build_filter. rewrite Hq, py_truthy_true by done.
  repeat (case_match; try rewrite lookup_insert_ne by done); apply lookup_insert_eq.
Qed.

Lemma build_filter_tags (r : Request) (t : pystr) :
  r.(tags) = Some t ->
  build_filter r !! "tags" =
    match tag_list t with [] => None | tl => Some (FVAll tl) end.
Proof.
  intros Ht. unfold build_filter. rewrite Ht.
  destruct (py_truthy t) eqn:E.
  - destruct (tag_list t); [|apply lookup_insert_eq].
    repeat (case_match; try rewrite lookup_insert_ne by done); done.
  - apply py_truthy_false in E. subst t. simpl.
    repeat (case_match; try rewrite lookup_insert_ne by done); done.
Qed.

Lemma or_clause_match cl (s : pystr) (d : Doc) :
  no_meta s = true ->
  (forall k v, k ∈ search_fields -> d !! k = Some v -> exists x, v = VStr x) ->
  clause_match cl d "$or" (or_clause s) =
    Some (existsb (fun k => match d !! k with
                            | Some (VStr x) => search cl true (map TLit s) x
                            | _ => false
                            end) search_fields).
Proof.
  intros Hs Hd. unfold clause_match, or_clause. simpl String.eqb. cbv iota beta.
  rewrite map_map, <- foldr_kor_some. f_equal.
  apply List.map_ext_in. intros k Hk. apply list_elem_of_In in Hk.
  destruct (d !! k) as [v|] eqn:E; simpl; [|done].
  destruct (Hd k v Hk E) as [x ->].
  unfold regex_search. rewrite (parse_pattern_lits s Hs). reflexivity.
Qed.

(** *** Splitting and stripping *)

Lemma py_split_go_nonempty (sep : Z) (s cur : pystr) : py_split_go sep s cur <> [].
Proof.
  revert cur. induction s as [|c s IH]; intros cur; simpl; [done|].
  case_match; [done|apply IH].
Qed.

Lemma join_py_split_go (sep : Z) (s cur : pystr) :
  join_with [sep] (py_split_go sep s cur) = cur ++ s.
Proof.
  revert cur. induction s as [|c s IH]; intros cur; simpl; [by rewrite app_nil_r|].
  destruct (c =? sep) eqn:E.
  - apply Z.eqb_eq in E. subst c.
    destruct (py_split_go sep s []) as [|p ps] eqn:Ep;
      [by apply py_split_go_nonempty in Ep|].
    change (join_with [sep] (cur :: p :: ps)) with (cur ++ [sep] ++ join_with [sep] (p :: ps)).
    rewrite <- Ep, IH. done.
  - rewrite IH. by rewrite <- app_assoc.
Qed.

Lemma py_split_go_no_sep (sep : Z) (s cur x : pystr) :
  sep ∉ cur -> x ∈ py_split_go sep s cur -> sep ∉ x.
Proof.
  revert cur. induction s as [|c s IH]; intros cur Hcur Hx; simpl in Hx.
  - apply list_elem_of_singleton in Hx. by subst.
  - destruct (c =? sep) eqn:E.
    + apply elem_of_cons in Hx as [->|Hx]; [done|].
      apply (IH []); [apply not_elem_of_nil|done].
    + apply (IH (cur ++ [c])); [|done].
      rewrite elem_of_app, list_elem_of_singleton. intros [H|H]; [done|].
      subst. by rewrite Z.eqb_refl in E.
Qed.

Lemma lstrip_spec (s : pystr) :
  exists a, s = a ++ lstrip s /\ Forall (fun c => is_space c = true) a.
Proof.
  induction s as [|c s (a & Ha & Hf)]; simpl; [by exists []|].
  destruct (is_space c) eqn:E.
  - exists (c :: a). simpl. rewrite <- Ha. split; [done|by constructor].
  - by exists [].
Qed.

Lemma lstrip_head (s : pystr) (c : Z) : head (lstrip s) = Some c -> is_space c = false.
Proof.
  induction s as [|c' s IH]; simpl; [done|].
  destruct (is_space c') eqn:E; [done|]. simpl. intros H. injection H as <-. done.
Qed.

Lemma rstrip_spec (s : pystr) :
  exists b, s = rstrip s ++ b /\ Forall (fun c => is_space c = true) b.
Proof.
  destruct (lstrip_spec (reverse s)) as (a & Ha & Hf).
  exists (reverse a). unfold rstrip. split.
  - rewrite <- reverse_app, <- Ha. by rewrite reverse_involutive.
  - by apply Forall_reverse.
Qed.

Lemma rstrip_last (s : pystr) (c : Z) : last (rstrip s) = Some c -> is_space c = false.
Proof. unfold rstrip. rewrite last_reverse. apply lstrip_head. Qed.

Lemma rstrip_head (s : pystr) (c : Z) : head (rstrip s) = Some c -> head s = Some c.
Proof.
  destruct (rstrip_spec s) as (b & Hb & _). rewrite Hb at 2.
  destruct (rstrip s); simpl; done.
Qed.

(** [strip] removes whitespace at both ends, and only there. *)
Lemma py_strip_spec (p : pystr) :
  exists a b, p = a ++ py_strip p ++ b /\
    Forall (fun c => is_space c = true) (a ++ b) /\
    (forall c, head (py_strip p) = Some c -> is_space c = false) /\
    (forall c, last (py_strip p) = Some c -> is_space c = false).
Proof.
  destruct (lstrip_spec p) as (a & Ha & Hfa).
  destruct (rstrip_spec (lstrip p)) as (b & Hb & Hfb).
  exists a, b. unfold py_strip. split; [|split; [|split]].
  - rewrite <- Hb. done.
  - by apply Forall_app.
  - intros c Hc. apply rstrip_head in Hc. by apply lstrip_head in Hc.
  - apply rstrip_last.
Qed.

Lemma elem_of_tag_list (t x : pystr) :
  x ∈ tag_list t <-> exists p, p ∈ py_split 44 t /\ x = py_strip p /\ x <> [].
Proof.
  unfold tag_list. rewrite list_elem_of_In, in_map_iff. split.
  - intros (p & <- & Hp). apply filter_In in Hp as [Hp Ht].
    exists p. split; [by apply list_elem_of_In|]. split; [done|].
    intros E. rewrite E in Ht. discriminate.
  - intros (p & Hp & -> & Hx). exists p. split; [done|].
    apply filter_In. split; [by apply list_elem_of_In|]. by apply py_truthy_true.
Qed.

(** *** Encoding the response *)



(** ** C1: the free-text clause *)

(** C1 (as amended).  When [q] is present and non-empty, [filter_query]
    holds under ["$or"] one disjunction that applies [q], unescaped, as a
    case-insensitive regular expression to exactly the eight fields
    firstName, lastName, full_name, title, department, email, phone and
    location.  When [q] has no regular-expression metacharacter, and the
    eight fields of a record are strings or absent, the clause selects the
    record exactly when one of these fields contains [q] as a substring up
    to case, whatever caseless comparison the store applies (Unicode case
    folding for MongoDB). *)
Theorem or_clause_regex_semantics (caseless : Z -> Z -> bool)
  (r : Request) (s : pystr) (d : Doc) :
  r.(q) = Some s -> s <> [] ->
  build_filter r !! "$or" = Some (or_clause s) /\
  or_clause s =
    FVOr [("firstName", FVRegex s (u "i")); ("lastName", FVRegex s (u "i"));
          ("full_name", FVRegex s (u "i")); ("title", FVRegex s (u "i"));
          ("department", FVRegex s (u "i")); ("email", FVRegex s (u "i"));
          ("phone", FVRegex s (u "i")); ("location", FVRegex s (u "i"))] /\
  (no_meta s = true ->
   (forall k v, k ∈ search_fields -> d !! k = Some v -> exists x, v = VStr x) ->
   (clause_match caseless d "$or" (or_clause s) = Some true <->
    exists k x, k ∈ search_fields /\ d !! k = Some (VStr x) /\ contains_ci caseless s x)).
Proof.
  intros Hq Hs. split; [by apply build_filter_or|]. split; [reflexivity|].
  intros Hm Hd. rewrite (or_clause_match caseless s d Hm Hd).
  split.
  - intros H. apply (inj Some) in H. apply existsb_exists in H as (k & Hk & Hg).
    destruct (d !! k) as [[| |x| |]|] eqn:E; try discriminate.
    exists k, x. split; [by apply list_elem_of_In|]. split; [done|].
    by apply contains_ci_search.
  - intros (k & x & Hk & E & Hc). f_equal. apply existsb_exists.
    exists k. split; [by apply list_elem_of_In|]. rewrite E.
    by apply contains_ci_search.
Qed.

(** C1, counterexample: with [q = "."] the clause selects a record whose
    firstName is ["x"], whatever the caseless comparison, although no
    field contains ["."] (for a comparison that keeps "." and "x" apart,
    as Unicode case folding does). *)
Lemma or_clause_dot_not_substring :
  let r := mkRequest (Some (u ".")) None None None None None in
  let d : Doc := {[ "firstName" := VStr (u "x") ]} in
  build_filter r !! "$or" = Some (or_clause (u ".")) /\
  (forall caseless, clause_match caseless d "$or" (or_clause (u ".")) = Some true) /\
  (forall caseless, caseless 46 120 = false ->
   ~ exists k x, k ∈ search_fields /\ d !! k = Some (VStr x) /\ contains_ci caseless (u ".") x).
Proof.
  simpl. split; [reflexivity|]. split.
  - intros cl. vm_compute. reflexivity.
  - intros cl Hcl (k & x & _ & Hd & Hc).
    apply lookup_singleton_Some in Hd as [_ Hx]. injection Hx as <-.
    destruct Hc as (a & m & b & Hs & Hl).
    change (u ".") with [46] in Hl. change (u "x") with [120] in Hs.
    inversion Hl as [|x y l l' Hxy Hll']; subst. inversion Hll'; subst.
    destruct a as [|a0 a]; simpl in Hs.
    + injection Hs as <- _. congruence.
    + injection Hs as _ Hs. destruct a; discriminate.
Qed.

(** ** C2: normalising a normalised record *)

(** C2 (as amended).  Normalising a record that has no ["_id"] removes
    nothing and changes only ["id"], which it sets to ["None"] (Python's
    [str] of the missing value); so a second normalisation replaces the
    identifier copied by the first with ["None"]. *)
Theorem normalize_without_oid (d : Doc) :
  d !! "_id" = None ->
  normalize d = <["id" := VStr (u "None")]> d /\
  normalize (normalize d) = <["id" := VStr (u "None")]> (normalize d).
Proof.
  intros H. unfold normalize at 1. unfold py_get. rewrite H.
  split; [by apply delete_id; rewrite lookup_insert_ne|].
  unfold normalize at 1. unfold py_get. rewrite normalize_lookup_oid.
  apply delete_id. rewrite lookup_insert_ne by done. apply normalize_lookup_oid.
Qed.

(** C2, counterexample: normalising a stored record twice does not give
    the record normalised once: the second pass overwrites ["id"]. *)
Lemma normalize_twice_differs :
  normalize (normalize {[ "_id" := VOid 1 ]}) <> normalize {[ "_id" := VOid 1 ]}.
Proof.
  intros H. apply (f_equal (lookup "id")) in H.
  rewrite !normalize_lookup_id in H. vm_compute in H. discriminate.
Qed.

(** ** C3: the tags clause *)

Lemma all_clause_match cl (d : Doc) (tl : list pystr) :
  tl <> [] ->
  clause_match cl d "tags" (FVAll tl) =
    Some (forallb (fun x => bool_decide (x ∈ field_strings (d !! "tags"))) tl).
Proof.
  intros Htl. simpl. by rewrite bool_decide_false.
Qed.

Lemma forallb_elem_iff (g : pystr -> bool) (l : list pystr) :
  forallb g l = true <-> forall x, x ∈ l -> g x = true.
Proof.
  rewrite forallb_forall. split; intros H x Hx; apply H; by apply list_elem_of_In.
Qed.

(** C3.  The tags parameter is split on commas (the pieces hold no comma
    and, joined with commas, give the parameter back); each piece is
    stripped of the whitespace at its ends (Python's whitespace, Unicode's
    included), and the empty results are dropped.  If nothing remains
    there is no tags clause.  Otherwise the clause is [{"$all": pieces}]:
    it holds for a record exactly when every piece is among the record's
    tags, and a record missing one of them is not selected by the
    filter. *)
Theorem tags_filter_superset (caseless : Z -> Z -> bool) (r : Request) (t : pystr) (d : Doc) :
  r.(tags) = Some t ->
  join_with [44] (py_split 44 t) = t /\
  (forall p, p ∈ py_split 44 t -> 44 ∉ p) /\
  (forall p, exists a b, p = a ++ py_strip p ++ b /\
     Forall (fun c => is_space c = true) (a ++ b) /\
     (forall c, head (py_strip p) = Some c -> is_space c = false) /\
     (forall c, last (py_strip p) = Some c -> is_space c = false)) /\
  (forall x, x ∈ tag_list t <-> exists p, p ∈ py_split 44 t /\ x = py_strip p /\ x <> []) /\
  (tag_list t = [] -> build_filter r !! "tags" = None) /\
  (tag_list t <> [] ->
   build_filter r !! "tags" = Some (FVAll (tag_list t)) /\
   (clause_match caseless d "tags" (FVAll (tag_list t)) = Some true <->
    forall x, x ∈ tag_list t -> x ∈ field_strings (d !! "tags")) /\
   ((exists x, x ∈ tag_list t /\ x ∉ field_strings (d !! "tags")) ->
    doc_matches caseless (build_filter r) d = Some false)).
Proof.
  intros Ht. split; [apply join_py_split_go|].
  split; [intros p; apply py_split_go_no_sep, not_elem_of_nil|].
  split; [apply py_strip_spec|].
  split; [apply elem_of_tag_list|].
  pose proof (build_filter_tags r t Ht) as Hb.
  split; [intros E; by rewrite E in Hb|].
  intros Hne. assert (build_filter r !! "tags" = Some (FVAll (tag_list t))) as Hb'.
  { rewrite Hb. by destruct (tag_list t). }
  split; [done|]. rewrite all_clause_match by done.
  split; [split|].
  - intros H. apply (inj Some) in H. intros x Hx.
    eapply bool_decide_eq_true_1. by apply forallb_elem_iff with (x := x) in H.
  - intros H. f_equal. apply forallb_elem_iff. intros x Hx.
    apply bool_decide_eq_true_2. auto.
  - intros (x & Hx & Hn). apply (doc_matches_clause_false _ _ _ _ _ Hb').
    rewrite all_clause_match by done. f_equal.
    apply not_true_is_false. intros H.
    apply Hn. eapply bool_decide_eq_true_1. by apply forallb_elem_iff with (x := x) in H.
Qed.

(** ** C4, C5, C8, C9, C10: the list operation *)

Ltac unfold_list_employees :=
  unfold list_employees;
  match goal with
  | |- context [if 500 <? ?l then _ else _] => destruct (500 <? l) eqn:?Hlim
  end.

(** The successful outcome of [list_employees]: the store answered with
    documents that all encode. *)
Ltac list_employees_ok :=
  match goal with
  | db : option _ |- _ => destruct db as [?s|]; [|discriminate]
  end;
  match goal with
  | |- context [match ?g ?s "employee" ?f ?l with inl _ => _ | inr _ => _ end] =>
      destruct (g s "employee" f l) as [?e|?docs] eqn:?G; [discriminate|]
  end;
  match goal with
  | |- context [if forallb doc_json_ok ?x then _ else _] =>
      destruct (forallb doc_json_ok x) eqn:?Hj; [|discriminate]
  end.

(** C4.  Provided the store's find returns at most the cap it is passed,
    a successful list response holds at most [limit] items (200 when no
    limit is given) and at most 500; the cap passed to the store is that
    limit. *)
Theorem list_employees_count_bounded {Store : Type}
  (get_documents : Store -> string -> Filter -> Z -> pystr + list Doc)
  (db : option Store) (r : Request) (res : ListResult) (evs : list Event) :
  (forall s docs, db = Some s ->
     get_documents s "employee" (build_filter r) (default 200 r.(limit)) = inr docs ->
     Z.of_nat (length docs) <= default 200 r.(limit)) ->
  list_employees get_documents db r = (Ok res, evs) ->
  evs = [EvFind "employee" (build_filter r) (default 200 r.(limit))] /\
  Z.of_nat (length (items res)) <= default 200 r.(limit) /\
  Z.of_nat (length (items res)) <= 500.
Proof.
  intros Hcap. unfold_list_employees; [discriminate|].
  apply Z.ltb_ge in Hlim. list_employees_ok.
  intros H. injection H as <- <-. simpl. rewrite length_map.
  specialize (Hcap s docs eq_refl G). repeat split; lia.
Qed.

(** C5.  A limit above 500 is rejected with the 422 client error, with no
    store interaction, whatever the store's state. *)
Theorem list_employees_rejects_over_500 {Store : Type}
  (get_documents : Store -> string -> Filter -> Z -> pystr + list Doc)
  (db : option Store) (r : Request) :
  500 < default 200 r.(limit) ->
  list_employees get_documents db r =
    (HTTPError 422 "Input should be less than or equal to 500", []).
Proof.
  intros Hl. unfold_list_employees; [done|]. apply Z.ltb_ge in Hlim. lia.
Qed.

(** C8.  Every item of a successful list response has an ["id"] that is a
    non-empty string and no ["_id"], provided no stored document has the
    empty string as its ["_id"]. *)
Theorem list_employees_items_have_id {Store : Type}
  (get_documents : Store -> string -> Filter -> Z -> pystr + list Doc)
  (db : option Store) (r : Request) (res : ListResult) (evs : list Event) :
  (forall s docs, db = Some s ->
     get_documents s "employee" (build_filter r) (default 200 r.(limit)) = inr docs ->
     forall d, d ∈ docs -> d !! "_id" <> Some (VStr [])) ->
  list_employees get_documents db r = (Ok res, evs) ->
  forall d, d ∈ items res ->
  (exists i, d !! "id" = Some (VStr i) /\ i <> []) /\ d !! "_id" = None.
Proof.
  intros Hid. unfold_list_employees; [discriminate|]. list_employees_ok.
  intros H. injection H as <- <-. simpl. intros d Hd.
  apply list_elem_of_In, in_map_iff in Hd as (d0 & <- & Hd0).
  apply list_elem_of_In in Hd0.
  split; [|apply normalize_lookup_oid].
  eexists. split; [apply normalize_lookup_id|].
  apply py_str_nonempty. unfold py_get.
  specialize (Hid s docs eq_refl G d0 Hd0).
  destruct (d0 !! "_id"); [|discriminate]. congruence.
Qed.

(** C9.  In a successful list response, [count] is the number of items. *)
Theorem list_employees_count_eq {Store : Type}
  (get_documents : Store -> string -> Filter -> Z -> pystr + list Doc)
  (db : option Store) (r : Request) (res : ListResult) (evs : list Event) :
  list_employees get_documents db r = (Ok res, evs) ->
  count res = length (items res).
Proof.
  unfold_list_employees; [discriminate|]. list_employees_ok.
  intros H. injection H as <- <-. simpl. by rewrite length_map.
Qed.

(** C10.  An empty [q], [department], [location] or [tags] adds no
    clause: the list operation behaves as if the parameter were absent. *)
Theorem list_employees_empty_param {Store : Type}
  (get_documents : Store -> string -> Filter -> Z -> pystr + list Doc)
  (db : option Store) :
  (forall de lo ia ta li,
     list_employees get_documents db (mkRequest (Some []) de lo ia ta li) =
     list_employees get_documents db (mkRequest None de lo ia ta li)) /\
  (forall qq lo ia ta li,
     list_employees get_documents db (mkRequest qq (Some []) lo ia ta li) =
     list_employees get_documents db (mkRequest qq None lo ia ta li)) /\
  (forall qq de ia ta li,
     list_employees get_documents db (mkRequest qq de (Some []) ia ta li) =
     list_employees get_documents db (mkRequest qq de None ia ta li)) /\
  (forall qq de lo ia li,
     list_employees get_documents db (mkRequest qq de lo ia (Some []) li) =
     list_employees get_documents db (mkRequest qq de lo ia None li)).
Proof. repeat split; reflexivity. Qed.

(** ** C6: no store configured *)

(** C6.  With no store handle, every list request FastAPI accepts
    (parameters of the declared types, limit at most 500, the default 200
    included) and every seed request fail with the service error 500
    "Database not configured" and make no store call; [/test] does not
    fail: it answers with a body saying the database is not
    initialised. *)
Theorem no_store_responses {Store : Type}
  (get_documents : Store -> string -> Filter -> Z -> pystr + list Doc)
  (create_document : Store -> string -> Doc -> Store * (pystr + pystr))
  (db_name : Store -> option pystr)
  (list_collection_names : Store -> pystr + list pystr)
  (r : Request) (env_url env_name : option pystr) :
  (default 200 r.(limit) <= 500 ->
   list_employees get_documents None r = (HTTPError 500 "Database not configured", [])) /\
  seed_employees create_document None = (HTTPError 500 "Database not configured", []) /\
  exists t,
    test_database db_name list_collection_names None env_url env_name = Ok t /\
    database t = u "⚠️  Available but not initialized" /\
    connection_status t = u "Not Connected" /\ collections t = [].
Proof.
  split; [|split].
  - intros Hl. unfold_list_employees; [apply Z.ltb_lt in Hlim; lia|done].
  - reflexivity.
  - eexists. split; [reflexivity|]. repeat split.
Qed.

(** ** C7: seeding *)

Lemma seed_loop_spec {Store : Type}
  (create_document : Store -> string -> Doc -> Store * (pystr + pystr))
  (st : Store) (docs : list Doc) (k : nat) :
  let '(_, n, evs) := seed_loop create_document st docs k in
  map ev_doc evs = map Some docs /\
  n = (k + length (List.filter ev_ok evs))%nat.
Proof.
  revert st k. induction docs as [|s rest IH]; intros st k; simpl; [split; [done|lia]|].
  destruct (create_document st "employee" s) as [st1 res].
  set (ok := match res with inl _ => false | inr _ => true end).
  specialize (IH st1 (if ok then S k else k)).
  destruct (seed_loop create_document st1 rest _) as [[st2 n] evs].
  destruct IH as [Hd Hn]. simpl. rewrite Hd. split; [done|].
  destruct ok; simpl; lia.
Qed.

(** C7.  Seeding with a store present tries the three sample records one
    after the other, whatever each insertion does; a failed insertion
    neither stops the loop nor fails the request; the count returned is
    the number of insertions that succeeded, 3 when none fails. *)
Theorem seed_attempts_each_record {Store : Type}
  (create_document : Store -> string -> Doc -> Store * (pystr + pystr))
  (st : Store) :
  let '(res, evs) := seed_employees create_document (Some st) in
  map ev_doc evs = map Some sample /\
  length sample = 3%nat /\
  res = Ok (length (List.filter ev_ok evs)) /\
  (length (List.filter ev_ok evs) <= 3)%nat /\
  (Forall (fun e => ev_ok e = true) evs -> res = Ok 3%nat).
Proof.
  unfold seed_employees.
  pose proof (seed_loop_spec create_document st sample 0) as Hs.
  destruct (seed_loop create_document st sample 0) as [[st' n] evs].
  destruct Hs as [Hd Hn]. simpl in Hn.
  assert (length evs = 3%nat) as Hl.
  { rewrite <- (length_map ev_doc evs), Hd. reflexivity. }
  split; [done|]. split; [reflexivity|]. split; [by rewrite Hn|].
  split.
  - rewrite <- Hl. apply List.filter_length_le.
  - intros Hall. rewrite Hn. f_equal. rewrite <- Hl.
    rewrite List.forallb_filter_id; [done|].
    apply forallb_forall. intros e He. rewrite List.Forall_forall in Hall. by apply Hall.
Qed.

(** ** Witnesses: the theorems above applied to concrete inputs *)

(** [q = "é"] selects a record whose lastName is ["É"], with case
    folding on the Latin-1 letters. *)
Lemma or_clause_regex_semantics_witness :
  clause_match caseless_latin1 {[ "lastName" := VStr (u "É") ]} "$or" (or_clause (u "é"))
    = Some true.
Proof.
  destruct (or_clause_regex_semantics caseless_latin1
              (mkRequest (Some (u "é")) None None None None None)
              (u "é") {[ "lastName" := VStr (u "É") ]} eq_refl ltac:(vm_compute; discriminate))
    as (_ & _ & H).
  apply H; [reflexivity| |].
  - intros k v _ Hk. apply lookup_singleton_Some in Hk as [_ <-]. by eexists.
  - exists "lastName", (u "É"). split; [apply list_elem_of_In; simpl; tauto|].
    split; [reflexivity|]. exists [], (u "É"), []. split; [reflexivity|].
    vm_compute. repeat constructor.
Defined.

Lemma normalize_without_oid_witness :
  normalize {[ "id" := VStr (u "abc") ]} = {[ "id" := VStr (u "None") ]}.
Proof.
  destruct (normalize_without_oid {[ "id" := VStr (u "abc") ]}) as [H _]; [reflexivity|].
  rewrite H. vm_compute. reflexivity.
Defined.

(** The tags filter ["Linux, DevOps"] rejects a record tagged only Linux. *)
Lemma tags_filter_superset_witness :
  doc_matches caseless_latin1
    (build_filter (mkRequest None None None None (Some (u "Linux, DevOps")) None))
    {[ "tags" := VList [VStr (u "Linux")] ]} = Some false.
Proof.
  destruct (tags_filter_superset caseless_latin1
              (mkRequest None None None None (Some (u "Linux, DevOps")) None)
              (u "Linux, DevOps") {[ "tags" := VList [VStr (u "Linux")] ]} eq_refl)
    as (_ & _ & _ & _ & _ & H).
  destruct (H ltac:(vm_compute; discriminate)) as (_ & _ & H2). apply H2.
  exists (u "DevOps"). split.
  - apply list_elem_of_In. vm_compute. right; left; reflexivity.
  - intros Hin. apply list_elem_of_In in Hin. vm_compute in Hin.
    destruct Hin as [Hin|[]]. discriminate.
Defined.

Lemma list_employees_count_bounded_witness :
  Z.of_nat (length (items (mkListResult [normalize demo_doc] 1))) <= 200 /\
  Z.of_nat (length (items (mkListResult [normalize demo_doc] 1))) <= 500.
Proof.
  destruct (list_employees_count_bounded demo_find (Some tt) demo_request
              (mkListResult [normalize demo_doc] 1)
              [EvFind "employee" (build_filter demo_request) 200]) as (_ & H1 & H2).
  - intros s docs _ H. vm_compute in H. injection H as <-. simpl. lia.
  - vm_compute. reflexivity.
  - split; assumption.
Defined.

Lemma list_employees_rejects_over_500_witness :
  list_employees demo_find (Some tt) (mkRequest None None None None None (Some 501)) =
    (HTTPError 422 "Input should be less than or equal to 500", []).
Proof. apply list_employees_rejects_over_500. simpl. lia. Defined.

Lemma list_employees_items_have_id_witness :
  (exists i, normalize demo_doc !! "id" = Some (VStr i) /\ i <> []) /\
  normalize demo_doc !! "_id" = None.
Proof.
  apply (list_employees_items_have_id demo_find (Some tt) demo_request
           (mkListResult [normalize demo_doc] 1)
           [EvFind "employee" (build_filter demo_request) 200]).
  - intros s docs _ H. vm_compute in H. injection H as <-.
    intros d Hd. apply list_elem_of_In in Hd. destruct Hd as [<-|[]].
    vm_compute. discriminate.
  - vm_compute. reflexivity.
  - apply list_elem_of_In. left. reflexivity.
Defined.

Lemma list_employees_count_eq_witness :
  count (mkListResult [normalize demo_doc] 1) =
  length (items (mkListResult [normalize demo_doc] 1)).
Proof.
  apply (list_employees_count_eq demo_find (Some tt) demo_request _
           [EvFind "employee" (build_filter demo_request) 200]).
  vm_compute. reflexivity.
Defined.

Lemma no_store_responses_witness :
  list_employees demo_find None demo_request = (HTTPError 500 "Database not configured", []).
Proof.
  apply (proj1 (no_store_responses demo_find (fun (st : unit) _ _ => (st, inr (u "ok")))
                  (fun _ => None) (fun _ => inr []) demo_request None None)).
  simpl. lia.
Defined.

(** With the second insertion failing, the third is still tried and the
    count is 2. *)
Lemma seed_attempts_each_record_witness :
  (let '(res, evs) := seed_employees demo_insert (Some 0%nat) in
   map ev_doc evs = map Some sample /\ length sample = 3%nat /\
   res = Ok (length (List.filter ev_ok evs)) /\
   (length (List.filter ev_ok evs) <= 3)%nat /\
   (Forall (fun e => ev_ok e = true) evs -> res = Ok 3%nat)) /\
  fst (seed_employees demo_insert (Some 0%nat)) = Ok 2%nat.
Proof. split; [apply seed_attempts_each_record|vm_compute; reflexivity]. Defined.

(** ** Further properties of the code *)

(** *** The normaliser *)

(** The normaliser leaves every field other than ["id"] and ["_id"] as it
    is: no coercion, no renaming. *)
Theorem normalize_keeps_other_fields (d : Doc) (k : string) :
  k <> "id" -> k <> "_id" -> normalize d !! k = d !! k.
Proof. apply normalize_lookup_ne. Qed.

Lemma hex_char_inj (x y : Z) :
  0 <= x < 16 -> 0 <= y < 16 -> hex_char x = hex_char y -> x = y.
Proof.
  unfold hex_char. intros Hx Hy H.
  destruct (Z.ltb_spec x 10), (Z.ltb_spec y 10); lia.
Qed.

Lemma hex_digits_mod (k : nat) (n m : Z) :
  0 <= n -> 0 <= m -> hex_digits k n = hex_digits k m ->
  n mod 16 ^ Z.of_nat k = m mod 16 ^ Z.of_nat k.
Proof.
  revert n m. induction k as [|k IH]; intros n m Hn Hm H.
  - simpl. rewrite !Z.mod_1_r. done.
  - simpl in H. apply app_inj_1 in H as [H1 H2]; [|by rewrite !length_hex_digits].
    injection H2 as H2.
    apply hex_char_inj in H2; [|apply Z.mod_pos_bound; lia|apply Z.mod_pos_bound; lia].
    apply IH in H1; [|apply Z.div_pos; lia|apply Z.div_pos; lia].
    rewrite Nat2Z.inj_succ, Z.pow_succ_r by lia.
    rewrite !Z.rem_mul_r by lia. congruence.
Qed.

(** A stored ObjectId becomes a 24-character [id], and distinct
    ObjectIds (96-bit values) become distinct [id]s: normalisation keeps
    identifiers unique. *)
Theorem normalize_oid_ids_distinct (d1 d2 : Doc) (n m : Z) :
  d1 !! "_id" = Some (VOid n) -> d2 !! "_id" = Some (VOid m) ->
  0 <= n < 2 ^ 96 -> 0 <= m < 2 ^ 96 ->
  normalize d1 !! "id" = Some (VStr (oid_str n)) /\
  length (oid_str n) = 24%nat /\
  (normalize d1 !! "id" = normalize d2 !! "id" -> n = m).
Proof.
  intros H1 H2 Hn Hm.
  rewrite !normalize_lookup_id. unfold py_get. rewrite H1, H2. unfold py_str.
  split; [done|]. split; [unfold oid_str; apply length_hex_digits|].
  intros H. assert (oid_str n = oid_str m) as H' by congruence. clear H.
  unfold oid_str in H'. rename H' into H.
  apply hex_digits_mod in H; [|lia|lia].
  change (16 ^ Z.of_nat 24) with (2 ^ 96) in H.
  rewrite !Z.mod_small in H by lia. done.
Qed.

(** *** The equality clauses of the query translator *)

Lemma build_filter_department (r : Request) (s : pystr) :
  r.(department) = Some s -> s <> [] -> build_filter r !! "department" = Some (FVStr s).
Proof.
  intros Hd Hs. unfold build_filter. rewrite Hd, py_truthy_true by done.
  repeat (case_match; try rewrite lookup_insert_ne by done); apply lookup_insert_eq.
Qed.

Lemma build_filter_location (r : Request) (s : pystr) :
  r.(location) = Some s -> s <> [] -> build_filter r !! "location" = Some (FVStr s).
Proof.
  intros Hd Hs. unfold build_filter. rewrite Hd, py_truthy_true by done.
  repeat (case_match; try rewrite lookup_insert_ne by done); apply lookup_insert_eq.
Qed.

Lemma build_filter_isActive (r : Request) (b : bool) :
  r.(isActive) = Some b -> build_filter r !! "isActive" = Some (FVBool b).
Proof.
  intros Hd. unfold build_filter. rewrite Hd.
  repeat (case_match; try rewrite lookup_insert_ne by done); apply lookup_insert_eq.
Qed.

Lemma str_clause_exact cl (d : Doc) (k : string) (s : pystr) (f : Filter) :
  f !! k = Some (FVStr s) ->
  (forall x, d !! k = Some (VStr x) -> (clause_match cl d k (FVStr s) = Some true <-> x = s)) /\
  ((d !! k = None \/ exists x, d !! k = Some (VStr x) /\ x <> s) ->
   doc_matches cl f d = Some false).
Proof.
  intros Hf. split.
  - intros x Hx. simpl. rewrite Hx. simpl.
    destruct (decide (s = x)) as [->|Hne].
    + rewrite bool_decide_true by done. split; done.
    + rewrite bool_decide_false by done. split; [discriminate|congruence].
  - intros Hd. apply (doc_matches_clause_false _ _ _ _ _ Hf). simpl.
    destruct Hd as [-> | (x & -> & Hx)]; [done|]. simpl.
    rewrite bool_decide_false by congruence. done.
Qed.

(** A non-empty department parameter adds the clause
    [department == value]: a record whose department is a string is
    selected by it exactly when that string equals the value, case
    included, and a record with no department or another one is not
    selected by the filter. *)
Theorem department_filter_exact (caseless : Z -> Z -> bool) (r : Request) (s : pystr) (d : Doc) :
  r.(department) = Some s -> s <> [] ->
  build_filter r !! "department" = Some (FVStr s) /\
  (forall x, d !! "department" = Some (VStr x) ->
     (clause_match caseless d "department" (FVStr s) = Some true <-> x = s)) /\
  ((d !! "department" = None \/ exists x, d !! "department" = Some (VStr x) /\ x <> s) ->
   doc_matches caseless (build_filter r) d = Some false).
Proof.
  intros Hd Hs. pose proof (build_filter_department r s Hd Hs) as Hf.
  split; [done|]. by apply str_clause_exact.
Qed.

(** The same for the location parameter. *)
Theorem location_filter_exact (caseless : Z -> Z -> bool) (r : Request) (s : pystr) (d : Doc) :
  r.(location) = Some s -> s <> [] ->
  build_filter r !! "location" = Some (FVStr s) /\
  (forall x, d !! "location" = Some (VStr x) ->
     (clause_match caseless d "location" (FVStr s) = Some true <-> x = s)) /\
  ((d !! "location" = None \/ exists x, d !! "location" = Some (VStr x) /\ x <> s) ->
   doc_matches caseless (build_filter r) d = Some false).
Proof.
  intros Hd Hs. pose proof (build_filter_location r s Hd Hs) as Hf.
  split; [done|]. by apply str_clause_exact.
Qed.

(** A supplied isActive, [false] included (the test is [is not None], not
    truthiness), adds the clause [isActive == value]: a record whose flag
    is a boolean is selected by it exactly when the flag equals the value,
    and a record with no flag or the other value is not selected. *)
Theorem isActive_filter_exact (caseless : Z -> Z -> bool) (r : Request) (b : bool) (d : Doc) :
  r.(isActive) = Some b ->
  build_filter r !! "isActive" = Some (FVBool b) /\
  (forall b', d !! "isActive" = Some (VBool b') ->
     (clause_match caseless d "isActive" (FVBool b) = Some true <-> b' = b)) /\
  ((d !! "isActive" = None \/ exists b', d !! "isActive" = Some (VBool b') /\ b' <> b) ->
   doc_matches caseless (build_filter r) d = Some false).
Proof.
  intros Hd. pose proof (build_filter_isActive r b Hd) as Hf.
  split; [done|]. split.
  - intros b' Hb. simpl. rewrite Hb. simpl. destruct b, b'; simpl; split; congruence.
  - intros Hn. apply (doc_matches_clause_false _ _ _ _ _ Hf). simpl.
    destruct Hn as [-> | (b' & -> & Hb)]; [done|]. simpl.
    destruct b, b'; simpl; congruence.
Qed.

(** *** The tag values *)

(** Every tag value the translator sends to the store is non-empty,
    contains no comma, and neither starts nor ends with whitespace
    (Python's, Unicode's included). *)
Theorem tag_list_values_clean (t x : pystr) :
  x ∈ tag_list t ->
  x <> [] /\ (44 ∉ x) /\
  (forall c, head x = Some c -> is_space c = false) /\
  (forall c, last x = Some c -> is_space c = false).
Proof.
  intros Hx. apply elem_of_tag_list in Hx as (p & Hp & -> & Hne).
  destruct (py_strip_spec p) as (a & b & Hab & _ & Hh & Hl).
  split; [done|]. split; [|done].
  intros Hc. apply (py_split_go_no_sep 44 t [] p (not_elem_of_nil _) Hp).
  rewrite Hab. apply elem_of_app. right. apply elem_of_app. by left.
Qed.

(** *** The list operation against a configured store *)



(** *** The diagnostic endpoint with a store *)


(** Whatever the store handle, and whatever name the store reports,
    [/test]'s database_url and database_name only say whether the
    environment variables DATABASE_URL and DATABASE_NAME are set to a
    non-empty value. *)
Theorem test_database_env_fields {Store : Type}
  (db_name : Store -> option pystr)
  (list_collection_names : Store -> pystr + list pystr)
  (db : option Store) (env_url env_name : option pystr) :
  exists t,
    test_database db_name list_collection_names db env_url env_name = Ok t /\
    (database_url t = u "✅ Set" /\ (exists v, env_url = Some v /\ v <> []) \/
     database_url t = u "❌ Not Set" /\ (env_url = None \/ env_url = Some [])) /\
    (database_name t = u "✅ Set" /\ (exists v, env_name = Some v /\ v <> []) \/
     database_name t = u "❌ Not Set" /\ (env_name = None \/ env_name = Some [])).
Proof.
  unfold test_database. eexists. split; [reflexivity|]. simpl.
  split.
  - destruct env_url as [[|c v]|]; [right; split; [done|by right]| |right; split; [done|by left]].
    left. split; [done|]. by exists (c :: v).
  - destruct env_name as [[|c v]|]; [right; split; [done|by right]| |right; split; [done|by left]].
    left. split; [done|]. by exists (c :: v).
Qed.

(** *** Seeding and the store *)

Lemma seed_loop_append (st docs : list Doc) (k : nat) :
  (seed_loop append_insert st docs k).1 = (st ++ docs, (k + length docs)%nat).
Proof.
  revert st k. induction docs as [|d rest IH]; intros st k; simpl.
  - by rewrite app_nil_r, Nat.add_0_r.
  - specialize (IH (st ++ [d]) (S k)).
    destruct (seed_loop append_insert (st ++ [d]) rest (S k)) as [[st2 n] evs].
    simpl in *. injection IH as -> ->. f_equal; [by rewrite <- app_assoc|lia].
Qed.

(** Seeding is not idempotent: against a store that keeps every inserted
    document, each run reports 3 and adds the three sample records at the
    end, so two runs leave two copies of the sample set. *)
Theorem seed_twice_two_copies (st : list Doc) :
  seed_employees append_insert (Some st) = (Ok 3%nat, (seed_loop append_insert st sample 0).2) /\
  (seed_loop append_insert st sample 0).1 = (st ++ sample, 3%nat) /\
  (seed_loop append_insert (st ++ sample) sample 0).1 = (st ++ sample ++ sample, 3%nat).
Proof.
  pose proof (seed_loop_append st sample 0) as H1.
  pose proof (seed_loop_append (st ++ sample) sample 0) as H2.
  split; [|split].
  - unfold seed_employees.
    destruct (seed_loop append_insert st sample 0) as [[st1 n] evs]. simpl in *.
    by injection H1 as _ ->.
  - exact H1.
  - rewrite H2. by rewrite <- app_assoc.
Qed.

(** *** Witnesses for the properties above *)

Lemma normalize_keeps_other_fields_witness :
  normalize demo_doc !! "department" = Some (VStr (u "HR")).
Proof. rewrite normalize_keeps_other_fields by discriminate. reflexivity. Defined.

Lemma normalize_oid_ids_distinct_witness :
  normalize {[ "_id" := VOid 7 ]} !! "id" <> normalize {[ "_id" := VOid 8 ]} !! "id".
Proof.
  intros H.
  destruct (normalize_oid_ids_distinct {[ "_id" := VOid 7 ]} {[ "_id" := VOid 8 ]} 7 8)
    as (_ & _ & Hinj); [reflexivity|reflexivity|lia|lia|].
  apply Hinj in H. discriminate.
Defined.

(** [department=hr] does not select the sample's HR record: the match is
    case-sensitive. *)
Lemma department_filter_exact_witness :
  doc_matches caseless_latin1
    (build_filter (mkRequest None (Some (u "hr")) None None None None)) demo_doc = Some false.
Proof.
  destruct (department_filter_exact caseless_latin1
              (mkRequest None (Some (u "hr")) None None None None) (u "hr") demo_doc)
    as (_ & _ & H); [reflexivity|vm_compute; discriminate|].
  apply H. right. exists (u "HR"). split; [reflexivity|vm_compute; discriminate].
Defined.

Lemma location_filter_exact_witness :
  doc_matches caseless_latin1
    (build_filter (mkRequest None None (Some (u "Oran")) None None None)) demo_doc = Some false.
Proof.
  destruct (location_filter_exact caseless_latin1
              (mkRequest None None (Some (u "Oran")) None None None) (u "Oran") demo_doc)
    as (_ & _ & H); [reflexivity|vm_compute; discriminate|].
  apply H. left. reflexivity.
Defined.

(** [isActive=false] excludes an active record. *)
Lemma isActive_filter_exact_witness :
  doc_matches caseless_latin1 (build_filter (mkRequest None None None (Some false) None None))
    {[ "isActive" := VBool true ]} = Some false.
Proof.
  destruct (isActive_filter_exact caseless_latin1
              (mkRequest None None None (Some false) None None) false
              {[ "isActive" := VBool true ]}) as (_ & _ & H); [reflexivity|].
  apply H. right. exists true. split; [reflexivity|discriminate].
Defined.

(** A tag written with a leading no-break space (U+00A0) is sent without
    it. *)
Lemma tag_list_values_clean_witness :
  u "Linux" <> [] /\ (44 ∉ u "Linux") /\
  (forall c, head (u "Linux") = Some c -> is_space c = false) /\
  (forall c, last (u "Linux") = Some c -> is_space c = false).
Proof.
  apply (tag_list_values_clean ([160] ++ u "Linux, DevOps")).
  apply list_elem_of_In. vm_compute. left; reflexivity.
Defined.

